(** * PDF mass downloader: the download engine and its status ledger

    A shallow embedding of [Multi Thread and PDF Mass Download.py]: the
    selection of the rows to download, the batch-size prompt, the
    per-row task [download_pdf] with its inner [attempt_download], and
    the loop that collects the results into [download_status_df].

    The network, the clock and the disk are made explicit.  What the
    outside world answers is an [Env] (an oracle indexed by the number of
    probes and of requests made so far); what the program changes is a
    [State] threaded through a small state-and-exception monad. *)

From Stdlib Require Import ZArith NArith String Ascii List Lia.
From Stdlib.Strings Require Import Byte.
From stdpp Require Import base strings gmap list pretty.

Local Open Scope string_scope.
Local Open Scope Z_scope.

(** ** Data *)

(** One row of [df_fixed].  The index label [BRnum] is [name]; a cell
    that pandas reads as NaN (or a column that is absent, for [row.get])
    is [None]. *)
Record Row := mkRow {
  name : string;
  Pdf_URL : option string;
  Report_Html_Address : option string
}.

(** The third component of what [download_pdf] returns, and the
    [File Size] cell of the ledger.  [NA] is the string N/A; [RawKB n] is
    the float [n / 1024] held by the local [file_size_kb] ([n] the size in
    bytes given by [os.path.getsize]); [FmtKB n] is that float printed
    with two decimals and the suffix KB. *)
Inductive FileSize :=
| NA
| RawKB (bytes : N)
| FmtKB (bytes : N).

(** The exceptions of [requests] that the four [except] clauses tell
    apart.  [requests.get] and [iter_content] raise the first type;
    [HTTPError] comes from [raise_for_status] only. *)
Inductive TransportError :=
| TimedOut
| ConnectionFailed
| OtherTransport (detail : string).

Inductive RequestException :=
| Timeout
| HTTPError (status_code : Z)
| ConnectionError
| OtherRequestException (detail : string).

Definition of_transport (t : TransportError) : RequestException :=
  match t with
  | TimedOut => Timeout
  | ConnectionFailed => ConnectionError
  | OtherTransport d => OtherRequestException d
  end.

(** Exceptions in flight inside a task: those of [requests], and the
    [ValueError] that the format [:.2f] raises on a string. *)
Inductive PyException :=
| Requests (e : RequestException)
| ValueError.

(** A response: the status line, the [Content-Type] header, and the body
    as [iter_content] delivers it: some chunks, then either the end of
    the stream or a transport error in the middle of it. *)
Record Response := mkResponse {
  status_code : Z;
  content_type : option string;
  chunks : list (list byte);
  broken : option TransportError
}.

Inductive Reply :=
| Fails (t : TransportError)
| Responds (r : Response).

Inductive Message :=
| MsgTimedOut                 (* No internet connection. Program timed out. *)
| MsgRetrying (remaining : Z) (* No internet connection. Retrying in .. seconds... *)
| MsgRestored.                (* Internet connection restored. Resuming downloads... *)

Inductive Event :=
| EProbe (up : bool)
| EGet (url : string)
| ESleep (secs : Z)
| EPrint (m : Message).

(** The world outside the program. *)
Record Env := mkEnv {
  online : nat -> bool;           (* answer of the k-th connectivity probe *)
  reply : string -> nat -> Reply  (* answer to the k-th [requests.get], for its url *)
}.

(** What the program changes.  [status_message] and [file_size_kb] are
    the two [nonlocal] variables of [download_pdf].  [clock] is what
    [time.time()] reads, in whole seconds; it is moved by [time.sleep]
    only, probes and requests being taken as instantaneous.  [log]
    keeps the probes, requests, pauses and messages in the order in which
    they happen. *)
Record State := mkState {
  clock : Z;
  probes : nat;
  requests_made : nat;
  fs : gmap string (list byte);
  status_message : string;
  file_size_kb : FileSize;
  log : list Event
}.

Definition set_clock (t : Z) (s : State) : State :=
  mkState t (probes s) (requests_made s) (fs s) (status_message s) (file_size_kb s) (log s).
Definition set_probes (n : nat) (s : State) : State :=
  mkState (clock s) n (requests_made s) (fs s) (status_message s) (file_size_kb s) (log s).
Definition set_requests_made (n : nat) (s : State) : State :=
  mkState (clock s) (probes s) n (fs s) (status_message s) (file_size_kb s) (log s).
Definition set_fs (f : gmap string (list byte)) (s : State) : State :=
  mkState (clock s) (probes s) (requests_made s) f (status_message s) (file_size_kb s) (log s).
Definition set_status_message (m : string) (s : State) : State :=
  mkState (clock s) (probes s) (requests_made s) (fs s) m (file_size_kb s) (log s).
Definition set_file_size_kb (v : FileSize) (s : State) : State :=
  mkState (clock s) (probes s) (requests_made s) (fs s) (status_message s) v (log s).
Definition emit (e : Event) (s : State) : State :=
  mkState (clock s) (probes s) (requests_made s) (fs s) (status_message s) (file_size_kb s)
          (log s ++ [e])%list.

(** ** The monad: state, exceptions, and process exit *)

Inductive Outcome (A : Type) :=
| Returned (a : A) (s : State)
| Raised (e : PyException) (s : State)
| Exited (s : State)            (* [sys.exit()]: SystemExit in flight *)
| OutOfFuel.
Arguments Returned {A} a s.
Arguments Raised {A} e s.
Arguments Exited {A} s.
Arguments OutOfFuel {A}.

Definition M (A : Type) : Type := State -> Outcome A.

Definition ret {A} (a : A) : M A := fun s => Returned a s.

Definition bind {A B} (m : M A) (k : A -> M B) : M B := fun s =>
  match m s with
  | Returned a s' => k a s'
  | Raised e s' => Raised e s'
  | Exited s' => Exited s'
  | OutOfFuel => OutOfFuel
  end.

Definition raise {A} (e : PyException) : M A := fun s => Raised e s.

Definition modify (f : State -> State) : M unit := fun s => Returned tt (f s).

Definition gets {A} (f : State -> A) : M A := fun s => Returned (f s) s.

(** [try: body / except RequestException-classes: handler].  Only the
    exceptions of [requests] are handled; anything else stays in flight. *)
Definition try_except {A} (body : M A) (handler : RequestException -> M A) : M A := fun s =>
  match body s with
  | Raised (Requests e) s' => handler e s'
  | o => o
  end.

Declare Scope py_scope.
Delimit Scope py_scope with py.
Notation "x <- m ;; k" := (bind m (fun x => k))
  (at level 100, m at next level, right associativity) : py_scope.
Notation "m ;;; k" := (bind m (fun _ => k))
  (at level 100, right associativity) : py_scope.
Local Open Scope py_scope.

(** ** Constants of the script *)

Definition pdf_download_folder : string := "PDF Downloads".
Definition not_downloaded : string := "Ikke downloadet".
Definition max_attempts : nat := 3.
Definition countdown_seconds : Z := 180.

Definition status_downloaded : string := "Downloadet".
Definition status_not_pdf : string := "Invalid Download (Not a PDF file)".
Definition status_timeout : string := "Invalid Download (Timeout)".
Definition status_http (code : Z) : string :=
  "Invalid Download (HTTP Error " +:+ pretty code +:+ ")".
Definition status_connection : string := "Invalid Download (Connection Error)".
Definition status_other (detail : string) : string :=
  "Invalid Download (Other Error: " +:+ detail +:+ ")".

Section Task.

Variable env : Env.

(** ** Primitives *)

Definition has_internet_connection : M bool := fun s =>
  let up := online env (probes s) in
  Returned up (emit (EProbe up) (set_probes (S (probes s)) s)).

Definition time_time : M Z := gets clock.

Definition time_sleep (secs : Z) : M unit :=
  modify (fun s => emit (ESleep secs) (set_clock (clock s + secs) s)).

Definition print (m : Message) : M unit := modify (emit (EPrint m)).

Definition sys_exit {A} : M A := fun s => Exited s.

Definition requests_get (url : string) : M Response := fun s =>
  let s' := emit (EGet url) (set_requests_made (S (requests_made s)) s) in
  match reply env url (requests_made s) with
  | Fails t => Raised (Requests (of_transport t)) s'
  | Responds r => Returned r s'
  end.

Definition raise_for_status (r : Response) : M unit :=
  if (400 <=? status_code r) && (status_code r <? 600)
  then raise (Requests (HTTPError (status_code r)))
  else ret tt.

(** [open(path, 'wb')]: the file exists and is empty. *)
Definition open_wb (path : string) : M unit :=
  modify (fun s => set_fs (<[path := []]> (fs s)) s).

Definition file_write (path : string) (chunk : list byte) : M unit :=
  modify (fun s => set_fs (<[path := (default [] (fs s !! path) ++ chunk)%list]> (fs s)) s).

Definition getsize (path : string) : M N :=
  gets (fun s => N.of_nat (length (default [] (fs s !! path)))).

(** [for chunk in response.iter_content(...): if chunk: pdf_file.write(chunk)] *)
Fixpoint write_chunks (path : string) (cs : list (list byte)) : M unit :=
  match cs with
  | [] => ret tt
  | c :: rest =>
      (match c with
       | [] => ret tt
       | _ => file_write path c
       end) ;;;
      write_chunks path rest
  end.

Definition stream_to (path : string) (r : Response) : M unit :=
  write_chunks path (chunks r) ;;;
  match broken r with
  | Some t => raise (Requests (of_transport t))
  | None => ret tt
  end.

(** ** [attempt_download] *)

(** The [while not has_internet_connection()] loop.  Every turn that
    does not leave the loop sleeps one second, so [S 180] turns are
    enough; [fuel] counts them. *)
Fixpoint wait_for_connection (fuel : nat) (start_time : Z) : M unit :=
  match fuel with
  | O => fun _ => OutOfFuel
  | S fuel' =>
      up <- has_internet_connection ;;
      if up then ret tt
      else
        now <- time_time ;;
        let elapsed := now - start_time in
        let remaining := countdown_seconds - elapsed in
        if remaining <=? 0 then
          print MsgTimedOut ;;;
          sys_exit
        else
          print (MsgRetrying remaining) ;;;
          time_sleep 1 ;;;
          wait_for_connection fuel' start_time
  end.

Definition wait_fuel : nat := S (Z.to_nat countdown_seconds).

(** How one turn of the [for attempt in range(...)] loop ends. *)
Inductive Ctl :=
| Continue
| Break
| Return (b : bool).

(** Lines 111-126: the connectivity check before each try. *)
Definition check_connection : M unit :=
  up <- has_internet_connection ;;
  if negb up then
    start_time <- time_time ;;
    wait_for_connection wait_fuel start_time ;;;
    print MsgRestored
  else ret tt.

(** Lines 128-151: the [try] block and its four [except] clauses. *)
Definition try_request (pdf_filename url : string) : M Ctl :=
  try_except
    (response <- requests_get url ;;
     raise_for_status response ;;;
     if negb (bool_decide (content_type response = Some "application/pdf")) then
       modify (set_status_message status_not_pdf) ;;;
       ret Break
     else
       open_wb pdf_filename ;;;
       stream_to pdf_filename response ;;;
       size <- getsize pdf_filename ;;
       modify (set_file_size_kb (RawKB size)) ;;;
       ret (Return true))
    (fun e =>
       modify (set_status_message
                 match e with
                 | Timeout => status_timeout
                 | HTTPError code => status_http code
                 | ConnectionError => status_connection
                 | OtherRequestException d => status_other d
                 end) ;;;
       ret Continue).

(** One turn of the loop; a turn that neither breaks nor returns ends
    with [time.sleep(1)]. *)
Definition attempt_once (pdf_filename url : string) : M Ctl :=
  check_connection ;;;
  c <- try_request pdf_filename url ;;
  match c with
  | Continue => time_sleep 1 ;;; ret Continue
  | _ => ret c
  end.

Fixpoint for_attempts (attempts : list nat) (body : nat -> M Ctl) : M bool :=
  match attempts with
  | [] => ret false
  | a :: rest =>
      c <- body a ;;
      match c with
      | Continue => for_attempts rest body
      | Break => ret false
      | Return b => ret b
      end
  end.

Definition attempt_download (pdf_filename url : string) : M bool :=
  for_attempts (seq 1 max_attempts) (fun _ => attempt_once pdf_filename url).

(** ** [download_pdf] *)

Definition notna (cell : option string) : bool :=
  match cell with Some _ => true | None => false end.

Definition truthy (cell : option string) : bool :=
  match cell with Some "" => false | Some _ => true | None => false end.

Definition cell_text (cell : option string) : string := default "" cell.

Definition format_kb (v : FileSize) : M FileSize :=
  match v with
  | RawKB n => ret (FmtKB n)
  | FmtKB n => ret (FmtKB n)
  | NA => raise ValueError
  end.

Definition pdf_filename_of (brnum : string) : string :=
  pdf_download_folder +:+ "/" +:+ brnum +:+ ".pdf".

Definition download_pdf (row : Row) : M (string * string * FileSize) :=
  let brnum := name row in
  let pdf_url := Pdf_URL row in
  let alt_url := Report_Html_Address row in
  let pdf_filename := pdf_filename_of brnum in
  modify (set_status_message status_downloaded) ;;;
  modify (set_file_size_kb NA) ;;;
  ok <- (if notna pdf_url && truthy pdf_url
         then attempt_download pdf_filename (cell_text pdf_url)
         else ret false) ;;
  if ok then
    st <- gets status_message ;;
    v <- gets file_size_kb ;;
    size <- format_kb v ;;
    ret (brnum, st, size)
  else
    ok' <- (if notna alt_url && truthy alt_url
            then attempt_download pdf_filename (cell_text alt_url)
            else ret false) ;;
    if ok' then
      st <- gets status_message ;;
      v <- gets file_size_kb ;;
      size <- format_kb v ;;
      ret (brnum, st, size)
    else
      st <- gets status_message ;;
      v <- gets file_size_kb ;;
      ret (brnum, st, v).

End Task.

(** ** The status ledger and the selection *)

(** One row of [download_status_df]; [None] is NaN (a cell that a
    [.loc] enlargement or a missing column leaves unset). *)
Record Entry := mkEntry {
  download_status : option string;
  file_size : option FileSize
}.

Definition status_of (ledger : gmap string Entry) (brnum : string) : option string :=
  ledger !! brnum ≫= download_status.

(** The mask [df_fixed['Pdf_URL'].notna() & (download_status_df['Download Status'] == 'Ikke downloadet')],
    at one row. *)
Definition is_downloadable (ledger : gmap string Entry) (r : Row) : bool :=
  notna (Pdf_URL r) && bool_decide (status_of ledger (name r) = Some not_downloaded).

Definition downloadable_rows (df_fixed : list Row) (ledger : gmap string Entry) : list Row :=
  List.filter (is_downloadable ledger) df_fixed.

(** [DataFrame.head(n)], that is [iloc[:n]]: the first [n] rows, and for
    a negative [n] all rows but the last [-n]. *)
Definition df_head {A} (n : Z) (rows : list A) : list A :=
  if 0 <=? n then firstn (Z.to_nat n) rows
  else firstn (length rows - Z.to_nat (- n)) rows.

(** *** The batch-size prompt *)








Definition selected_rows (df_fixed : list Row) (ledger : gmap string Entry) (n : Z) : list Row :=
  df_head n (downloadable_rows df_fixed ledger).

(** *** Collecting the results *)

(** [download_status_df.loc[brnum, 'Download Status'] = result_status] *)
Definition loc_set_status (brnum result_status : string) (ledger : gmap string Entry)
  : gmap string Entry :=
  <[brnum := mkEntry (Some result_status) (ledger !! brnum ≫= file_size)]> ledger.

(** [download_status_df.loc[brnum, 'File Size'] = file_size] *)
Definition loc_set_file_size (brnum : string) (size : FileSize) (ledger : gmap string Entry)
  : gmap string Entry :=
  <[brnum := mkEntry (ledger !! brnum ≫= download_status) (Some size)]> ledger.

Definition record_result (ledger : gmap string Entry) (res : string * string * FileSize)
  : gmap string Entry :=
  let '(brnum, result_status, size) := res in
  loc_set_file_size brnum size (loc_set_status brnum result_status ledger).

(** The [for future in as_completed(futures)] loop.  [completed] lists
    the submitted rows in the order in which their results arrive.  The
    interleaving of the pool's threads is not part of this model: each
    task is run to its end when its result is collected.
    [future.result()] re-raises what the task raised, so an exit or an
    exception in a task ends the loop, and the ledger is not saved. *)
Fixpoint collect (env : Env) (completed : list Row) (ledger : gmap string Entry)
  : M (gmap string Entry) := fun s =>
  match completed with
  | [] => Returned ledger s
  | row :: rest =>
      match download_pdf env row s with
      | Returned res s' => collect env rest (record_result ledger res) s'
      | Raised e s' => Raised e s'
      | Exited s' => Exited s'
      | OutOfFuel => OutOfFuel
      end
  end.

(** ** Observations *)

Definition returned_value {A} (o : Outcome A) : option A :=
  match o with
  | Returned a _ => Some a
  | _ => None
  end.

Definition final_state {A} (o : Outcome A) : option State :=
  match o with
  | Returned _ s | Raised _ s | Exited s => Some s
  | OutOfFuel => None
  end.

(** The statuses that [download_pdf] can hand back. *)
Inductive terminal_status : string -> Prop :=
| ts_downloaded : terminal_status status_downloaded
| ts_not_pdf : terminal_status status_not_pdf
| ts_timeout : terminal_status status_timeout
| ts_http code : terminal_status (status_http code)
| ts_connection : terminal_status status_connection
| ts_other detail : terminal_status (status_other detail).

Definition failure_status (e : RequestException) : string :=
  match e with
  | Timeout => status_timeout
  | HTTPError code => status_http code
  | ConnectionError => status_connection
  | OtherRequestException d => status_other d
  end.

(** A response that passes [raise_for_status] and the content-type test,
    so that its body is streamed to the destination path. *)
Definition http_error (r : Response) : bool :=
  (400 <=? status_code r) && (status_code r <? 600).

Definition is_pdf (r : Response) : bool :=
  bool_decide (content_type r = Some "application/pdf").

Definition streamed (rep : Reply) : bool :=
  match rep with
  | Fails _ => false
  | Responds r => negb (http_error r) && is_pdf r
  end.

(** *** Sample replies *)
Definition s0 : State := mkState 0 0 0 ∅ "" NA [].

Definition pdf_bytes : list (list byte) := [[x25; x50; x44; x46]; []; [x2d]].
Definition pdf_response : Response := mkResponse 200 (Some "application/pdf") pdf_bytes None.
Definition not_found : Response := mkResponse 404 (Some "text/html") [] None.
Definition cut_response : Response :=
  mkResponse 200 (Some "application/pdf") [[x25; x50]] (Some ConnectionFailed).

Definition always_online : nat -> bool := fun _ => true.

(** ** Vocabulary of the proofs *)

(** [m] started in [s] ends by returning with [Q] or by exiting with
    [X]; it neither raises nor runs out of fuel. *)
Definition ends {A} (m : M A) (s : State) (Q : A -> State -> Prop) (X : State -> Prop) : Prop :=
  match m s with
  | Returned a s' => Q a s'
  | Exited s' => X s'
  | Raised _ _ => False
  | OutOfFuel => False
  end.

(** The part of the state that the connectivity check leaves alone. *)
Definition same_task_state (s s' : State) : Prop :=
  status_message s' = status_message s /\
  file_size_kb s' = file_size_kb s /\
  fs s' = fs s /\
  requests_made s' = requests_made s.

(** The watchdog of the connectivity check has fired. *)
Definition timed_out (s : State) : Prop :=
  last (log s) = Some (EPrint MsgTimedOut).

(** The state right after the k-th [requests.get] has been issued. *)
Definition asked (url : string) (s : State) : State :=
  emit (EGet url) (set_requests_made (S (requests_made s)) s).

(** What the [try] block does, case by case on the reply. *)
Inductive request_step (env : Env) (f url : string) (s : State) : Ctl -> State -> Prop :=
| step_fails t :
    reply env url (requests_made s) = Fails t ->
    request_step env f url s Continue
      (set_status_message (failure_status (of_transport t)) (asked url s))
| step_http_error r :
    reply env url (requests_made s) = Responds r ->
    http_error r = true ->
    request_step env f url s Continue
      (set_status_message (status_http (status_code r)) (asked url s))
| step_not_pdf r :
    reply env url (requests_made s) = Responds r ->
    http_error r = false ->
    is_pdf r = false ->
    request_step env f url s Break
      (set_status_message status_not_pdf (asked url s))
| step_cut r t :
    reply env url (requests_made s) = Responds r ->
    http_error r = false ->
    is_pdf r = true ->
    broken r = Some t ->
    request_step env f url s Continue
      (set_status_message (failure_status (of_transport t))
         (set_fs (<[f := concat (chunks r)]> (fs s)) (asked url s)))
| step_saved r :
    reply env url (requests_made s) = Responds r ->
    http_error r = false ->
    is_pdf r = true ->
    broken r = None ->
    request_step env f url s (Return true)
      (set_file_size_kb (RawKB (N.of_nat (length (concat (chunks r)))))
         (set_fs (<[f := concat (chunks r)]> (fs s)) (asked url s))).

(** The state after one try that is answered by a retriable failure
    recorded as [st], with the connection up: probe, request, status,
    one-second pause. *)
Definition failed_try (url st : string) (s : State) : State :=
  let s1 := emit (EProbe true) (set_probes (S (probes s)) s) in
  let s2 := set_status_message st (asked url s1) in
  emit (ESleep 1) (set_clock (clock s2 + 1) s2).

(** The status that an [except] clause records for a reply that fails
    before any byte is streamed; [None] for the other replies. *)
Definition retry_status (rep : Reply) : option string :=
  match rep with
  | Fails t => Some (failure_status (of_transport t))
  | Responds r => if http_error r then Some (status_http (status_code r)) else None
  end.

(** *** Sample worlds, rows and ledgers *)

Definition primary_url : string := "http://reports.example/br50041.pdf".
Definition fallback_url : string := "http://reports.example/br50041-alt.pdf".

Definition env_404_then_pdf : Env :=
  mkEnv always_online
        (fun url _ => if String.eqb url primary_url
                      then Responds not_found else Responds pdf_response).
Definition env_timeout : Env := mkEnv always_online (fun _ _ => Fails TimedOut).
Definition env_cut : Env := mkEnv always_online (fun _ _ => Responds cut_response).
Definition env_pdf : Env := mkEnv always_online (fun _ _ => Responds pdf_response).
Definition env_offline : Env := mkEnv (fun _ => false) (fun _ _ => Responds pdf_response).

Definition row_both : Row := mkRow "BR50041" (Some primary_url) (Some fallback_url).
Definition row_blank : Row := mkRow "BR50042" (Some "") None.
Definition row_alt_only : Row := mkRow "BR50043" None (Some fallback_url).
Definition row_next : Row := mkRow "BR50044" (Some primary_url) None.
Definition row_done : Row := mkRow "BR50045" (Some primary_url) None.

Definition pending : Entry := mkEntry (Some not_downloaded) None.

Definition df_sample : list Row := [row_both; row_alt_only; row_next; row_done].

Definition ledger_sample : gmap string Entry :=
  <["BR50041" := pending]>
    (<["BR50043" := pending]>
       (<["BR50044" := pending]>
          (<["BR50045" := mkEntry (Some status_timeout) (Some NA)]> ∅))).

(** A first session over the sample sheet, with a batch of one. *)
Definition first_run : Outcome (gmap string Entry) :=
  collect env_pdf (selected_rows df_sample ledger_sample 1) ledger_sample s0.
Definition ledger_after : gmap string Entry := default ∅ (returned_value first_run).
Definition state_after : State := default s0 (final_state first_run).

(** The ledger holds a terminal status and a size for [brnum]. *)
Definition settled (ledger : gmap string Entry) (brnum : string) : Prop :=
  exists st size,
    ledger !! brnum = Some (mkEntry (Some st) (Some size)) /\ terminal_status st.

(** ** The repair of the sheet (lines 38-50) *)

(** A row of the sheet is the list of its cells in column order, NaN
    being [None].  [i_ext] and [i_type] are the positions of the columns
    [External Assurance] and [Type of Assurance Provider].  The index
    label of the row is used by the progress message only, which is not
    part of this model; labels are taken to be numbers (the message
    adds one to them) and unique, so that [df.loc[index, ...]] writes
    one row. *)

(** [value in ['Yes', 'No']] *)
Definition yes_no (c : option string) : bool :=
  match c with
  | Some v => String.eqb v "Yes" || String.eqb v "No"
  | None => false
  end.

(** [pd.isna(value)] *)
Definition isna (c : option string) : bool :=
  match c with
  | None => true
  | Some _ => false
  end.

(** [Series.shift(-1)]: every value moves one place towards the front,
    the last place becomes NaN. *)
Definition shift_up (cells : list (option string)) : list (option string) :=
  match cells with
  | [] => []
  | _ :: rest => (rest ++ [None])%list
  end.

(** The body of the [for index, row in df.iterrows()] loop, on one row.
    [None] is the [KeyError] of a missing column.  [row] is the copy that
    [iterrows] hands out: the shifted slice is taken from the row as it
    was read. *)
Definition fix_row (i_ext i_type : nat) (row : list (option string))
  : option (list (option string)) :=
  match row !! i_type, row !! i_ext with
  | Some type_of_assurance_value, Some external_assurance_value =>
      if yes_no type_of_assurance_value then
        if yes_no external_assurance_value then Some row
        else if isna external_assurance_value then
          Some (take i_type (<[i_ext := type_of_assurance_value]> row)
                ++ shift_up (drop i_type row))%list
        else Some row
      else Some row
  | _, _ => None
  end.

(** The whole loop; the first [KeyError] ends it, and with it the
    [try] block, before the sheet is saved. *)
Fixpoint fix_sheet (i_ext i_type : nat) (rows : list (list (option string)))
  : option (list (list (option string))) :=
  match rows with
  | [] => Some []
  | row :: rest =>
      match fix_row i_ext i_type row with
      | Some row' =>
          match fix_sheet i_ext i_type rest with
          | Some rest' => Some (row' :: rest')
          | None => None
          end
      | None => None
      end
  end.

(** ** The ledger at the start of a session (lines 62-74) *)

(** Without a status file: one pending entry per row of the sheet, and
    no [File Size] column. *)
Definition fresh_ledger (df_fixed : list Row) : gmap string Entry :=
  list_to_map ((fun r => (name r, pending)) <$> df_fixed).

(** With a status file: its content, with the [File Size] column filled
    with N/A when the file has none. *)
Definition load_ledger (saved : option (bool * gmap string Entry)) (df_fixed : list Row)
  : gmap string Entry :=
  match saved with
  | Some (has_file_size, ledger) =>
      if has_file_size then ledger
      else (fun e => mkEntry (download_status e) (Some NA)) <$> ledger
  | None => fresh_ledger df_fixed
  end.

(** *** More sample worlds *)

(** The first request times out, the next ones deliver the PDF. *)
Definition env_flaky : Env :=
  mkEnv always_online
        (fun _ k => match k with O => Fails TimedOut | _ => Responds pdf_response end).



(** A sheet of four columns: name, External Assurance, Type of
    Assurance Provider, Assurance Scope. *)
Definition sheet_sample : list (list (option string)) :=
  [ [Some "Acme"; None; Some "Yes"; Some "Accountant"];
    [Some "Bolt"; Some "No"; None; None];
    [Some "Core"; Some "Yes"; Some "No"; Some "Limited"] ].

(** The state in which the sample row has been downloaded. *)
Definition state_saved : State :=
  default s0 (final_state (download_pdf env_pdf row_both s0)).

(** Rewrites what is known about the state [s1] in which [download_pdf]
    starts its first attempt into facts about the state before it. *)
Ltac at_start s1 :=
  repeat match goal with
  | H : context [s1] |- _ =>
      unfold s1 in H;
      cbn [requests_made fs file_size_kb status_message log
           set_file_size_kb set_status_message] in H
  end.

(** * Properties *)

(** ** The monad and the primitives *)

Lemma set_fs_same (s : State) : set_fs (fs s) s = s.
Proof. by destruct s. Qed.

Lemma same_task_state_refl (s : State) : same_task_state s s.
Proof. by repeat split. Qed.

Lemma same_task_state_trans (s1 s2 s3 : State) :
  same_task_state s1 s2 -> same_task_state s2 s3 -> same_task_state s1 s3.
Proof.
  intros (H1 & H2 & H3 & H4) (K1 & K2 & K3 & K4).
  repeat split; congruence.
Qed.

Lemma ends_bind {A B} (m : M A) (k : A -> M B) s Q X :
  ends m s (fun a s' => ends (k a) s' Q X) X -> ends (bind m k) s Q X.
Proof. unfold ends, bind. by destruct (m s). Qed.

Lemma ends_mono {A} (m : M A) s (Q Q' : A -> State -> Prop) (X X' : State -> Prop) :
  (forall a s', Q a s' -> Q' a s') -> (forall s', X s' -> X' s') ->
  ends m s Q X -> ends m s Q' X'.
Proof. unfold ends. intros HQ HX. destruct (m s); auto. Qed.

Lemma write_chunks_eq (p : string) (cs : list (list byte)) (s : State) (old : list byte) :
  fs s !! p = Some old ->
  write_chunks p cs s = Returned tt (set_fs (<[p := (old ++ concat cs)%list]> (fs s)) s).
Proof.
  revert s old. induction cs as [|c rest IH]; intros s old Hold; simpl.
  - rewrite app_nil_r, insert_id by done. by rewrite set_fs_same.
  - destruct c as [|b c]; unfold bind; simpl.
    + by apply IH.
    + unfold file_write, modify. rewrite Hold. simpl.
      erewrite IH by (simpl; apply lookup_insert_eq).
      simpl. rewrite insert_insert_eq. unfold set_fs. simpl.
      by rewrite <- app_assoc.
Qed.

Lemma try_request_step env f url s :
  exists c s', try_request env f url s = Returned c s' /\ request_step env f url s c s'.
Proof.
  unfold try_request, try_except, bind, requests_get.
  fold (asked url s).
  destruct (reply env url (requests_made s)) as [t|r] eqn:Hrep.
  - eexists _, _. split; [reflexivity|]. by apply step_fails.
  - unfold raise_for_status. fold (http_error r).
    destruct (http_error r) eqn:Hhttp.
    + eexists _, _. split; [reflexivity|]. by eapply step_http_error.
    + unfold ret at 1. fold (is_pdf r). destruct (is_pdf r) eqn:Hpdf; simpl.
      * unfold stream_to, bind.
        erewrite write_chunks_eq by (simpl; apply lookup_insert_eq).
        simpl. rewrite insert_insert_eq.
        destruct (broken r) as [t|] eqn:Hcut.
        -- eexists _, _. split; [reflexivity|]. by eapply step_cut.
        -- eexists _, _. split.
           ++ unfold ret, getsize, gets, modify. simpl.
              rewrite lookup_insert_eq. reflexivity.
           ++ by eapply step_saved.
      * eexists _, _. split; [reflexivity|]. by eapply step_not_pdf.
Qed.

(** ** The connectivity check *)

Lemma wait_for_connection_ends env fuel start s :
  (0 < fuel)%nat -> countdown_seconds < clock s - start + Z.of_nat fuel ->
  ends (wait_for_connection env fuel start) s
       (fun _ s' => same_task_state s s')
       (fun s' => same_task_state s s' /\ timed_out s').
Proof.
  revert s. induction fuel as [|fuel IH]; intros s Hpos Hfuel; [lia|].
  unfold ends. simpl. unfold bind, has_internet_connection.
  destruct (online env (probes s)); simpl.
  - by repeat split.
  - destruct (countdown_seconds - (clock s - start) <=? 0) eqn:Hrem; simpl.
    + split; [by repeat split | apply last_snoc].
    + apply Z.leb_gt in Hrem.
      match goal with |- context [wait_for_connection env fuel start ?s1] =>
        specialize (IH s1) end.
      simpl in IH. unfold ends in IH.
      destruct (wait_for_connection env fuel start _); apply IH; lia.
Qed.

Lemma check_connection_ends env s :
  ends (check_connection env) s
       (fun _ s' => same_task_state s s')
       (fun s' => same_task_state s s' /\ timed_out s').
Proof.
  unfold check_connection. apply ends_bind.
  unfold ends at 1, has_internet_connection.
  destruct (online env (probes s)); cbn [negb].
  - by repeat split.
  - apply ends_bind. unfold ends at 1, time_time, gets.
    apply ends_bind.
    eapply ends_mono; [| | apply wait_for_connection_ends].
    + intros [] s' Hs'. exact Hs'.
    + intros s' Hs'. exact Hs'.
    + unfold wait_fuel. lia.
    + unfold wait_fuel, countdown_seconds. lia.
Qed.

Lemma check_connection_online env s :
  online env (probes s) = true ->
  check_connection env s = Returned tt (emit (EProbe true) (set_probes (S (probes s)) s)).
Proof.
  intros Hup. unfold check_connection, bind, has_internet_connection.
  by rewrite Hup.
Qed.

(** ** One turn of the retry loop, and the loop *)

Lemma attempt_once_ends env f url s :
  ends (attempt_once env f url) s
       (fun c s' => exists s1 s2,
            same_task_state s s1 /\ request_step env f url s1 c s2 /\
            same_task_state s2 s')
       (fun s' => same_task_state s s' /\ timed_out s').
Proof.
  unfold attempt_once. apply ends_bind.
  eapply ends_mono; [| | apply check_connection_ends]; [|auto].
  intros [] s1 Hs1. apply ends_bind.
  destruct (try_request_step env f url s1) as (c & s2 & Heq & Hstep).
  unfold ends at 1. rewrite Heq.
  destruct c; unfold ends; simpl; exists s1, s2;
    (split; [exact Hs1|]); (split; [exact Hstep|]); by repeat split.
Qed.

(** Invariant rule for the [for] loop: [I] holds while the loop goes
    on, [T] when it returns [True], [F] when it ends with [False]. *)
Lemma for_attempts_ends (I T F X : State -> Prop) (body : nat -> M Ctl) :
  (forall s, I s -> F s) ->
  (forall a s, I s ->
     ends (body a) s
          (fun c s' => match c with
                       | Continue => I s'
                       | Break => F s'
                       | Return true => T s'
                       | Return false => F s'
                       end) X) ->
  forall attempts s, I s ->
    ends (for_attempts attempts body) s (fun b s' => if b then T s' else F s') X.
Proof.
  intros HIF Hbody attempts. induction attempts as [|a rest IH]; intros s HI.
  - unfold ends. simpl. by apply HIF.
  - simpl. apply ends_bind.
    eapply ends_mono; [| |apply (Hbody a s HI)]; [|auto].
    intros [| |[|]] s' Hc; simpl; try exact Hc.
    by apply IH.
Qed.

(** ** Terminal statuses *)

Lemma terminal_failure_status e : terminal_status (failure_status e).
Proof. destruct e; constructor. Qed.

Lemma terminal_status_not_pending st : terminal_status st -> st <> not_downloaded.
Proof.
  intros []; unfold not_downloaded, status_http, status_other; cbn [String.append]; discriminate.
Qed.

Lemma attempt_download_terminal env f url s :
  terminal_status (status_message s) ->
  ends (attempt_download env f url) s
       (fun b s' => if b
                    then terminal_status (status_message s') /\
                         exists n, file_size_kb s' = RawKB n
                    else terminal_status (status_message s'))
       timed_out.
Proof.
  intros Hs. unfold attempt_download.
  apply for_attempts_ends with (I := fun s => terminal_status (status_message s));
    [auto | | exact Hs].
  clear s Hs. intros _ s Hs.
  eapply ends_mono; [| |apply attempt_once_ends]; [|by intros s' [_ ?]].
  intros c s' (s1 & s2 & (E1 & _) & Hstep & (K1 & K2 & _)).
  inversion Hstep; subst; simpl in *; rewrite ?K1, ?K2.
  - apply terminal_failure_status.
  - constructor.
  - constructor.
  - apply terminal_failure_status.
  - split; [by rewrite E1 | by eexists].
Qed.

(** ** [download_pdf] *)

(** The task returns the row's label with a terminal status, or ends in
    the exit of the connectivity watchdog; it raises nothing. *)
Lemma download_pdf_ends env row s :
  match download_pdf env row s with
  | Returned (brnum, status, _) _ =>
      brnum = name row /\ terminal_status status /\ status <> not_downloaded
  | Exited s' => timed_out s'
  | Raised _ _ => False
  | OutOfFuel => False
  end.
Proof.
  unfold download_pdf.
  set (f := pdf_filename_of (name row)).
  unfold bind at 1 2. unfold modify at 1 2.
  set (s1 := set_file_size_kb NA (set_status_message status_downloaded s)).
  assert (Hs1 : terminal_status (status_message s1)) by constructor.
  assert (Hret : forall (m : M bool) s2,
     terminal_status (status_message s2) ->
     ends m s2 (fun b s' => if b
                    then terminal_status (status_message s') /\
                         exists n, file_size_kb s' = RawKB n
                    else terminal_status (status_message s')) timed_out ->
     forall k : M (string * string * FileSize),
     (forall s3, terminal_status (status_message s3) ->
        match k s3 with
        | Returned (brnum, status, _) _ =>
            brnum = name row /\ terminal_status status /\ status <> not_downloaded
        | Exited s' => timed_out s'
        | Raised _ _ => False
        | OutOfFuel => False
        end) ->
     match (ok <- m ;;
            if ok then
              st <- gets status_message ;;
              v <- gets file_size_kb ;;
              size <- format_kb v ;;
              ret (name row, st, size)
            else k)%py s2 with
     | Returned (brnum, status, _) _ =>
         brnum = name row /\ terminal_status status /\ status <> not_downloaded
     | Exited s' => timed_out s'
     | Raised _ _ => False
     | OutOfFuel => False
     end).
  { intros m s2 Hs2 Hm k Hk. unfold bind at 1. unfold ends in Hm.
    destruct (m s2) as [[|] s3| | |]; try done.
    - destruct Hm as [Hst [n Hn]]. unfold bind, gets. rewrite Hn. simpl.
      auto using terminal_status_not_pending.
    - by apply Hk. }
  apply Hret; [exact Hs1 | |].
  - destruct (notna (Pdf_URL row) && truthy (Pdf_URL row)).
    + by apply attempt_download_terminal.
    + exact Hs1.
  - intros s3 Hs3. apply Hret; [exact Hs3 | |].
    + destruct (notna (Report_Html_Address row) && truthy (Report_Html_Address row)).
      * by apply attempt_download_terminal.
      * exact Hs3.
    + intros s4 Hs4. unfold bind, gets, ret.
      auto using terminal_status_not_pending.
Qed.

(** ** The selection *)

Lemma elem_of_downloadable_rows (r : Row) (df : list Row) (ledger : gmap string Entry) :
  r ∈ downloadable_rows df ledger <-> r ∈ df /\ is_downloadable ledger r = true.
Proof. unfold downloadable_rows. rewrite !list_elem_of_In. apply filter_In. Qed.

Lemma df_head_subseteq {A} (n : Z) (rows : list A) : df_head n rows ⊆ rows.
Proof. unfold df_head. destruct (0 <=? n); apply subseteq_take. Qed.

Lemma is_downloadable_true (ledger : gmap string Entry) (r : Row) :
  is_downloadable ledger r = true <->
  Pdf_URL r <> None /\ status_of ledger (name r) = Some not_downloaded.
Proof.
  unfold is_downloadable, notna. rewrite andb_true_iff, bool_decide_eq_true.
  destruct (Pdf_URL r); split; intros [H1 H2]; done.
Qed.

(** ** The ledger *)

Lemma record_result_lookup (ledger : gmap string Entry) b st size :
  record_result ledger (b, st, size) !! b = Some (mkEntry (Some st) (Some size)).
Proof.
  unfold record_result, loc_set_file_size, loc_set_status.
  by rewrite !lookup_insert_eq.
Qed.

Lemma record_result_lookup_ne (ledger : gmap string Entry) b b' st size :
  b <> b' -> record_result ledger (b, st, size) !! b' = ledger !! b'.
Proof.
  intros Hne. unfold record_result, loc_set_file_size, loc_set_status.
  by rewrite !lookup_insert_ne.
Qed.

Lemma collect_cons env row rest (ledger ledger' : gmap string Entry) s s' :
  collect env (row :: rest) ledger s = Returned ledger' s' ->
  exists st size s1,
    download_pdf env row s = Returned (name row, st, size) s1 /\
    terminal_status st /\
    collect env rest (record_result ledger (name row, st, size)) s1 = Returned ledger' s'.
Proof.
  simpl. pose proof (download_pdf_ends env row s) as Hd.
  destruct (download_pdf env row s) as [[[b st] size] s1| | |]; try done.
  destruct Hd as (-> & Hst & _). intros Hc. by exists st, size, s1.
Qed.

Lemma collect_settled env completed : forall (ledger ledger' : gmap string Entry) s s',
  collect env completed ledger s = Returned ledger' s' ->
  (forall b, settled ledger b -> settled ledger' b) /\
  (forall r, r ∈ completed -> settled ledger' (name r)) /\
  (forall b, b ∉ name <$> completed -> ledger' !! b = ledger !! b).
Proof.
  induction completed as [|row rest IH]; intros ledger ledger' s s' Hc.
  - simpl in Hc. injection Hc as <- <-. split; [done|]. split; [|done].
    intros r Hr. by apply elem_of_nil in Hr.
  - apply collect_cons in Hc as (st & size & s1 & _ & Hst & Hc).
    apply IH in Hc as (Hmono & Hin & Hout).
    assert (Hrow : settled (record_result ledger (name row, st, size)) (name row)).
    { exists st, size. split; [apply record_result_lookup | exact Hst]. }
    split; [|split].
    + intros b Hb. apply Hmono.
      destruct (decide (name row = b)) as [<-|Hne]; [exact Hrow|].
      destruct Hb as (st' & size' & Hl & Ht). exists st', size'.
      split; [by rewrite record_result_lookup_ne | exact Ht].
    + intros r [->|Hr]%elem_of_cons; [by apply Hmono | by apply Hin].
    + intros b Hb. rewrite fmap_cons, not_elem_of_cons in Hb. destruct Hb as [Hne Hb].
      rewrite Hout by exact Hb. by apply record_result_lookup_ne.
Qed.

Lemma settled_not_downloadable (ledger : gmap string Entry) (r : Row) :
  settled ledger (name r) -> is_downloadable ledger r = false.
Proof.
  intros (st & size & Hl & Ht). apply not_true_is_false.
  rewrite is_downloadable_true. intros [_ Hs].
  unfold status_of in Hs. rewrite Hl in Hs. simpl in Hs.
  injection Hs as ->. by apply terminal_status_not_pending in Ht.
Qed.

(** ** Single turns with the connection up *)

Lemma attempt_once_retry env f url st s :
  online env (probes s) = true ->
  retry_status (reply env url (requests_made s)) = Some st ->
  attempt_once env f url s = Returned Continue (failed_try url st s).
Proof.
  intros Hup Hst. unfold attempt_once, bind at 1.
  rewrite check_connection_online by exact Hup.
  set (s1 := emit (EProbe true) (set_probes (S (probes s)) s)).
  destruct (try_request_step env f url s1) as (c & s2 & Heq & Hstep).
  unfold bind. rewrite Heq.
  change (requests_made s) with (requests_made s1) in Hst.
  unfold retry_status in Hst.
  inversion Hstep as [t Hr|r Hr He|r Hr He Hp|r t Hr He Hp Hb|r Hr He Hp Hb];
    subst; rewrite Hr in Hst; rewrite ?He in Hst; try discriminate;
    injection Hst as <-; reflexivity.
Qed.


Lemma attempt_once_saved env f url r s :
  online env (probes s) = true ->
  reply env url (requests_made s) = Responds r ->
  http_error r = false ->
  is_pdf r = true ->
  broken r = None ->
  let s1 := asked url (emit (EProbe true) (set_probes (S (probes s)) s)) in
  attempt_once env f url s =
  Returned (Return true)
    (set_file_size_kb (RawKB (N.of_nat (length (concat (chunks r)))))
       (set_fs (<[f := concat (chunks r)]> (fs s)) s1)).
Proof.
  intros Hup Hrep Hok Hpdf Hend. unfold attempt_once, bind at 1.
  rewrite check_connection_online by exact Hup.
  set (s1 := emit (EProbe true) (set_probes (S (probes s)) s)).
  destruct (try_request_step env f url s1) as (c & s2 & Heq & Hstep).
  unfold bind. rewrite Heq.
  change (requests_made s) with (requests_made s1) in Hrep.
  inversion Hstep as [t Hr|r' Hr He|r' Hr He Hp|r' t Hr He Hp Hb|r' Hr He Hp Hb];
    subst; rewrite Hr in Hrep; try discriminate;
    injection Hrep as ->; try congruence; reflexivity.
Qed.

(** Three tries answered by retriable failures use up the loop. *)
Lemma attempt_download_retries env f url st s :
  (forall k, online env k = true) ->
  (forall k, retry_status (reply env url k) = Some st) ->
  attempt_download env f url s =
  Returned false (failed_try url st (failed_try url st (failed_try url st s))).
Proof.
  intros Hup Hst. unfold attempt_download, max_attempts. simpl.
  unfold bind.
  rewrite (attempt_once_retry env f url st) by auto.
  rewrite (attempt_once_retry env f url st) by auto.
  rewrite (attempt_once_retry env f url st) by auto.
  reflexivity.
Qed.

(** ** The claims about the retry loop *)



(** ** The claims about [download_pdf] and the prompt *)

Lemma truthy_nonempty (u : string) : u <> "" -> notna (Some u) && truthy (Some u) = true.
Proof. by destruct u. Qed.

(** C1.  What the code does where the claim expects a success status:
    when every request to the primary url is answered by an HTTP error
    and the fallback url then delivers a PDF, [download_pdf] returns the
    size of the fallback download together with the status left by the
    primary url's failure.  [status_message] is assigned only at the
    start of the task and in the failure branches, so the successful
    fallback does not put the success status back. *)
Theorem fallback_success_keeps_primary_failure env row s p a rp ra :
  (forall k, online env k = true) ->
  Pdf_URL row = Some p -> p <> "" ->
  Report_Html_Address row = Some a -> a <> "" ->
  (forall k, reply env p k = Responds rp) ->
  http_error rp = true ->
  (forall k, reply env a k = Responds ra) ->
  http_error ra = false -> is_pdf ra = true -> broken ra = None ->
  returned_value (download_pdf env row s) =
  Some (name row, status_http (status_code rp),
        FmtKB (N.of_nat (length (concat (chunks ra))))).
Proof.
  intros Hup Hp Hpne Ha Hane Hrp Herr Hra Hok Hpdf Hend.
  unfold download_pdf. rewrite Hp, Ha, !truthy_nonempty by assumption.
  unfold bind at 1 2 3. unfold modify at 1 2. cbn [cell_text default].
  rewrite (attempt_download_retries env _ p (status_http (status_code rp)))
    by (try exact Hup; intros k; rewrite Hrp; simpl; by rewrite Herr).
  unfold bind at 1. unfold attempt_download, max_attempts. simpl for_attempts.
  unfold bind at 1 2.
  rewrite (attempt_once_saved env _ a ra) by auto.
  reflexivity.
Qed.

(** C9.  A row whose primary url is the empty string and whose fallback
    url is missing or empty makes [download_pdf] return the initial
    status and the size N/A without a probe, a request or a write; such
    a row passes the selection when its status is the pending one, and
    the ledger then records it as downloaded. *)
Theorem blank_primary_counts_as_downloaded env row s :
  Pdf_URL row = Some "" ->
  Report_Html_Address row = None \/ Report_Html_Address row = Some "" ->
  (exists s',
     download_pdf env row s = Returned (name row, status_downloaded, NA) s' /\
     log s' = log s /\ requests_made s' = requests_made s /\
     probes s' = probes s /\ fs s' = fs s) /\
  (forall ledger : gmap string Entry,
     status_of ledger (name row) = Some not_downloaded ->
     is_downloadable ledger row = true /\
     status_of (record_result ledger (name row, status_downloaded, NA)) (name row)
       = Some status_downloaded).
Proof.
  intros Hp Ha. split.
  - eexists. split.
    + unfold download_pdf. rewrite Hp. destruct Ha as [-> | ->]; reflexivity.
    + by repeat split.
  - intros ledger Hst. split.
    + apply is_downloadable_true. by rewrite Hp.
    + unfold status_of. by rewrite record_result_lookup.
Qed.



(** ** The claims about the disk, the selection and the session *)

Lemma streamed_step_false env f url s c s' :
  streamed (reply env url (requests_made s)) = false ->
  request_step env f url s c s' ->
  fs s' = fs s /\ c <> Return true.
Proof.
  intros Hno Hstep.
  inversion Hstep as [t Hr|r Hr He|r Hr He Hp|r t Hr He Hp Hb|r Hr He Hp Hb];
    subst; rewrite Hr in Hno; simpl in Hno; rewrite ?He, ?Hp in Hno;
    try discriminate; by split.
Qed.

Lemma request_step_other_paths env f url s c s' p :
  p <> f -> request_step env f url s c s' -> fs s' !! p = fs s !! p.
Proof.
  intros Hne Hstep. inversion Hstep; subst; simpl; try done;
    by rewrite lookup_insert_ne.
Qed.

(** C6, as the code has it.  [attempt_download] touches no path but the
    destination path of its row; and when no reply passes both
    [raise_for_status] and the content-type test (so that no body is
    streamed), it ends with [False], or in the watchdog's exit, with the
    disk as it was.  The code writes straight to the destination path
    and has no clean-up: what a transfer that breaks in mid-stream has
    written so far stays there. *)
Theorem failed_attempt_disk env f url s :
  ends (attempt_download env f url) s
       (fun _ s' => forall p, p <> f -> fs s' !! p = fs s !! p)
       (fun s' => forall p, p <> f -> fs s' !! p = fs s !! p) /\
  ((forall k, streamed (reply env url k) = false) ->
   ends (attempt_download env f url) s
        (fun ok s' => ok = false /\ fs s' = fs s)
        (fun s' => fs s' = fs s)).
Proof.
  split.
  - eapply ends_mono; [| |
      apply (for_attempts_ends
               (fun s1 => forall p, p <> f -> fs s1 !! p = fs s !! p)
               (fun s1 => forall p, p <> f -> fs s1 !! p = fs s !! p)
               (fun s1 => forall p, p <> f -> fs s1 !! p = fs s !! p)
               (fun s1 => forall p, p <> f -> fs s1 !! p = fs s !! p))];
      [by intros [] | auto | auto | | auto].
    intros _ s1 HI.
    eapply ends_mono; [| |apply attempt_once_ends].
    + intros c s' (s2 & s3 & (_ & _ & E & _) & Hstep & (_ & _ & K & _)).
      assert (forall p, p <> f -> fs s' !! p = fs s !! p) as Hgoal.
      { intros p Hp. rewrite K, (request_step_other_paths _ _ _ _ _ _ _ Hp Hstep), E.
        by apply HI. }
      by destruct c as [| |[|]].
    + intros s' [(_ & _ & E & _) _] p Hp. rewrite E. by apply HI.
  - intros Hno.
    eapply ends_mono; [| |
      apply (for_attempts_ends (fun s1 => fs s1 = fs s) (fun _ => False)
               (fun s1 => fs s1 = fs s) (fun s1 => fs s1 = fs s))];
      [by intros [] | auto | auto | | auto].
    intros _ s1 HI.
    eapply ends_mono; [| |apply attempt_once_ends].
    + intros c s' (s2 & s3 & (_ & _ & E & _) & Hstep & (_ & _ & K & _)).
      apply streamed_step_false in Hstep as [Hfs Hc]; [|apply Hno].
      assert (fs s' = fs s) as Hgoal by congruence.
      by destruct c as [| |[|]].
    + intros s' [(_ & _ & E & _) _]. congruence.
Qed.

(** C2, as the code has it.  A row is a candidate exactly when it is in
    the sheet, its [Pdf_URL] cell is not NaN, and its status is the
    pending one; the fallback url plays no part, and an empty string in
    [Pdf_URL] counts as present.  A row whose status is not the pending
    one is never selected, whatever the batch size. *)
Theorem candidate_iff (df : list Row) (ledger : gmap string Entry) (r : Row) :
  (r ∈ downloadable_rows df ledger <->
   r ∈ df /\ Pdf_URL r <> None /\ status_of ledger (name r) = Some not_downloaded) /\
  (forall n, status_of ledger (name r) <> Some not_downloaded ->
             r ∉ selected_rows df ledger n).
Proof.
  split.
  - rewrite elem_of_downloadable_rows, is_downloadable_true. reflexivity.
  - intros n Hst Hr.
    apply df_head_subseteq, elem_of_downloadable_rows in Hr as [_ Hr].
    apply is_downloadable_true in Hr as [_ Hr]. contradiction.
Qed.

(** C8, as the code has it.  After a session that ran to its end, no row
    selected by that session is selected again, whatever the next batch
    size; and when the session had selected every candidate, the next
    selection is empty. *)
Theorem rerun_skips_first_run env df (ledger ledger' : gmap string Entry) n m completed s s' :
  completed ≡ₚ selected_rows df ledger n ->
  collect env completed ledger s = Returned ledger' s' ->
  (forall r, r ∈ selected_rows df ledger n -> r ∉ selected_rows df ledger' m) /\
  (selected_rows df ledger n = downloadable_rows df ledger ->
   selected_rows df ledger' m = []).
Proof.
  intros Hperm Hc. apply collect_settled in Hc as (_ & Hin & Hout).
  assert (Hsel : forall r, r ∈ selected_rows df ledger n -> is_downloadable ledger' r = false).
  { intros r Hr. apply settled_not_downloadable, Hin. by rewrite Hperm. }
  split.
  - intros r Hr Hr'. apply df_head_subseteq, elem_of_downloadable_rows in Hr' as [_ Hr'].
    rewrite (Hsel r Hr) in Hr'. discriminate.
  - intros Hall.
    assert (Hnone : downloadable_rows df ledger' = []).
    { apply elem_of_nil_inv. intros r [Hdf Hd]%elem_of_downloadable_rows.
      destruct (is_downloadable ledger r) eqn:Hold.
      - rewrite Hsel in Hd; [discriminate|].
        rewrite Hall. by apply elem_of_downloadable_rows.
      - destruct (decide (name r ∈ name <$> completed)) as [Hdone|Hnot].
        + apply list_elem_of_fmap in Hdone as (r' & Hname & Hr').
          apply Hin in Hr'. rewrite <- Hname in Hr'.
          apply settled_not_downloadable in Hr'. congruence.
        + apply Hout in Hnot.
          apply is_downloadable_true in Hd as [Hurl Hst].
          apply not_true_iff_false in Hold. apply Hold, is_downloadable_true.
          split; [exact Hurl|]. unfold status_of in *. by rewrite <- Hnot. }
    unfold selected_rows. rewrite Hnone. unfold df_head.
    destruct (0 <=? m); apply take_nil.
Qed.

(** ** A total outage *)

Lemma wait_for_connection_offline env fuel start s :
  (forall k, online env k = false) ->
  (0 < fuel)%nat -> countdown_seconds < clock s - start + Z.of_nat fuel ->
  ends (wait_for_connection env fuel start) s (fun _ _ => False) timed_out.
Proof.
  intros Hoff. revert s. induction fuel as [|fuel IH]; intros s Hpos Hfuel; [lia|].
  unfold ends. simpl. unfold bind, has_internet_connection.
  rewrite Hoff. simpl.
  destruct (countdown_seconds - (clock s - start) <=? 0) eqn:Hrem; simpl.
  - apply last_snoc.
  - apply Z.leb_gt in Hrem.
    match goal with |- context [wait_for_connection env fuel start ?s1] =>
      specialize (IH s1) end.
    simpl in IH. unfold ends in IH.
    destruct (wait_for_connection env fuel start _); apply IH; lia.
Qed.

Lemma attempt_download_offline env f url s :
  (forall k, online env k = false) ->
  ends (attempt_download env f url) s (fun _ _ => False) timed_out.
Proof.
  intros Hoff. unfold attempt_download, max_attempts. simpl for_attempts.
  apply ends_bind. unfold attempt_once. apply ends_bind.
  unfold check_connection. apply ends_bind.
  unfold ends at 1, has_internet_connection. rewrite Hoff. cbn [negb].
  apply ends_bind. unfold ends at 1, time_time, gets.
  apply ends_bind.
  eapply ends_mono; [| |apply wait_for_connection_offline]; try done.
  - unfold wait_fuel. lia.
  - unfold wait_fuel, countdown_seconds. simpl. lia.
Qed.

(** With the connection down for good, the first collected row that has
    a url to try ends the whole loop in the watchdog's exit: no ledger
    comes back. *)
Lemma outage_ends_session env row rest (ledger : gmap string Entry) s :
  (forall k, online env k = false) ->
  truthy (Pdf_URL row) = true ->
  match collect env (row :: rest) ledger s with
  | Exited s' => timed_out s'
  | _ => False
  end.
Proof.
  intros Hoff Hurl. simpl. unfold download_pdf.
  assert (Hna : notna (Pdf_URL row) = true) by (by destruct (Pdf_URL row)).
  rewrite Hna, Hurl. cbn [andb].
  unfold bind at 1 2 3. unfold modify at 1 2.
  match goal with |- context [attempt_download env ?f ?u ?s1] =>
    pose proof (attempt_download_offline env f u s1 Hoff) as Hexit;
    unfold ends in Hexit;
    destruct (attempt_download env f u s1) end; done.
Qed.

(** ** Instances *)

Lemma first_run_returns : first_run = Returned ledger_after state_after.
Proof. vm_compute. reflexivity. Qed.

(** The statement of C1 at a 404 followed by a PDF of five bytes. *)
Lemma fallback_success_keeps_primary_failure_witness :
  returned_value (download_pdf env_404_then_pdf row_both s0) =
  Some ("BR50041", status_http 404, FmtKB 5).
Proof.
  apply (fallback_success_keeps_primary_failure
           env_404_then_pdf row_both s0 primary_url fallback_url not_found pdf_response);
    try reflexivity; discriminate.
Defined.

(** The same run with the status written out. *)
Example fallback_success_status_text :
  returned_value (download_pdf env_404_then_pdf row_both s0) =
  Some ("BR50041", "Invalid Download (HTTP Error 404)", FmtKB 5).
Proof. vm_compute. reflexivity. Qed.

(** Against C2 as written: a pending row with a fallback url and no
    primary url is not a candidate. *)
Lemma fallback_only_row_not_candidate :
  row_alt_only ∈ df_sample /\
  truthy (Report_Html_Address row_alt_only) = true /\
  status_of ledger_sample (name row_alt_only) = Some not_downloaded /\
  row_alt_only ∉ downloadable_rows df_sample ledger_sample.
Proof.
  split; [|split; [|split]].
  - unfold df_sample. apply list_elem_of_In. simpl. auto.
  - reflexivity.
  - vm_compute. reflexivity.
  - intros [_ H]%elem_of_downloadable_rows. vm_compute in H. discriminate.
Qed.

Lemma candidate_iff_witness :
  row_both ∈ downloadable_rows df_sample ledger_sample /\
  row_done ∉ selected_rows df_sample ledger_sample 20.
Proof.
  split.
  - apply (proj1 (candidate_iff df_sample ledger_sample row_both)).
    split; [|split].
    + apply list_elem_of_In. simpl. auto.
    + discriminate.
    + vm_compute. reflexivity.
  - apply (proj2 (candidate_iff df_sample ledger_sample row_done) 20).
    vm_compute. discriminate.
Defined.



(** Against C6 as written: a transfer cut after two bytes, on each of
    the three tries, ends with [False] and leaves the two bytes at the
    destination path, where there was no file before. *)
Lemma broken_transfer_leaves_partial_file :
  match attempt_download env_cut (pdf_filename_of "BR50041") primary_url s0 with
  | Returned ok s' =>
      ok = false /\
      status_message s' = status_connection /\
      fs s0 !! pdf_filename_of "BR50041" = None /\
      fs s' !! pdf_filename_of "BR50041" = Some [x25; x50]
  | _ => False
  end.
Proof. vm_compute. by repeat split. Qed.

Lemma failed_attempt_disk_witness :
  ends (attempt_download env_timeout (pdf_filename_of "BR50041") primary_url) s0
       (fun ok s' => ok = false /\ fs s' = fs s0)
       (fun s' => fs s' = fs s0).
Proof.
  apply (proj2 (failed_attempt_disk env_timeout (pdf_filename_of "BR50041") primary_url s0)).
  reflexivity.
Defined.



(** Against C8 as written: with two candidates and a batch of one, the
    first session settles the first row and the next selection takes the
    second. *)
Lemma second_run_takes_next_rows :
  selected_rows df_sample ledger_sample 1 = [row_both] /\
  first_run = Returned ledger_after state_after /\
  status_of ledger_after "BR50041" = Some status_downloaded /\
  selected_rows df_sample ledger_after 1 = [row_next].
Proof.
  split; [|split; [|split]]; vm_compute; reflexivity.
Qed.

Lemma rerun_skips_first_run_witness :
  row_both ∈ selected_rows df_sample ledger_sample 1 /\
  row_both ∉ selected_rows df_sample ledger_after 1.
Proof.
  assert (Hin : row_both ∈ selected_rows df_sample ledger_sample 1).
  { apply list_elem_of_In. vm_compute. auto. }
  split; [exact Hin|].
  apply (proj1 (rerun_skips_first_run env_pdf df_sample ledger_sample ledger_after 1 1
                  (selected_rows df_sample ledger_sample 1) s0 state_after
                  (reflexivity _) first_run_returns) row_both Hin).
Defined.

Lemma blank_primary_counts_as_downloaded_witness :
  exists s',
    download_pdf env_offline row_blank s0 = Returned ("BR50042", status_downloaded, NA) s' /\
    log s' = [] /\ requests_made s' = 0%nat /\ probes s' = 0%nat /\ fs s' = ∅.
Proof.
  apply (proj1 (blank_primary_counts_as_downloaded env_offline row_blank s0
                  eq_refl (or_introl eq_refl))).
Defined.


(** * Further properties of the code *)

(** ** The paths through [download_pdf] *)

(** X1.  With the connection up, a primary url whose first reply is a
    PDF delivered to its end is downloaded in one request: the status is
    the success one, the size is that of the body, the body is at the
    destination path, and the fallback url is never requested. *)
Theorem primary_success_skips_fallback env row s p r :
  online env (probes s) = true ->
  Pdf_URL row = Some p -> p <> "" ->
  reply env p (requests_made s) = Responds r ->
  http_error r = false -> is_pdf r = true -> broken r = None ->
  exists s',
    download_pdf env row s =
      Returned (name row, status_downloaded,
                FmtKB (N.of_nat (length (concat (chunks r))))) s' /\
    log s' = (log s ++ [EProbe true; EGet p])%list /\
    fs s' = <[pdf_filename_of (name row) := concat (chunks r)]> (fs s) /\
    clock s' = clock s.
Proof.
  intros Hup Hp Hpne Hrep Hok Hpdf Hend.
  eexists. split.
  - unfold download_pdf. rewrite Hp, truthy_nonempty by assumption.
    unfold bind at 1 2 3. unfold modify at 1 2. cbn [cell_text default].
    unfold attempt_download, max_attempts. simpl for_attempts.
    unfold bind at 1 2.
    rewrite (attempt_once_saved env _ p r) by assumption.
    reflexivity.
  - simpl. rewrite <- app_assoc. by repeat split.
Qed.


(** X3.  A try that fails followed by a try that succeeds on the same
    url: [attempt_download] returns [True] and the file is complete, but
    [status_message] still holds the text of the failed try. *)
Theorem retry_success_keeps_failure_status env f url st r s :
  online env (probes s) = true ->
  online env (S (probes s)) = true ->
  retry_status (reply env url (requests_made s)) = Some st ->
  reply env url (S (requests_made s)) = Responds r ->
  http_error r = false -> is_pdf r = true -> broken r = None ->
  exists s',
    attempt_download env f url s = Returned true s' /\
    status_message s' = st /\
    file_size_kb s' = RawKB (N.of_nat (length (concat (chunks r)))) /\
    fs s' !! f = Some (concat (chunks r)) /\
    log s' = (log s ++ [EProbe true; EGet url; ESleep 1; EProbe true; EGet url])%list.
Proof.
  intros Hup1 Hup2 Hst Hrep Hok Hpdf Hend.
  eexists. split.
  - unfold attempt_download, max_attempts. simpl for_attempts.
    unfold bind at 1.
    rewrite (attempt_once_retry env f url st) by assumption.
    unfold bind at 1.
    rewrite (attempt_once_saved env f url r) by assumption.
    reflexivity.
  - simpl. rewrite lookup_insert_eq, <- !app_assoc. by repeat split.
Qed.

(** ** What every run of a task keeps *)

Lemma failure_status_not_downloaded e : failure_status e <> status_downloaded.
Proof.
  destruct e; unfold failure_status, status_downloaded, status_timeout, status_http,
    status_connection, status_other; cbn [String.append]; discriminate.
Qed.

Lemma request_step_facts env f url s c s2 :
  request_step env f url s c s2 ->
  requests_made s2 = S (requests_made s) /\
  (forall p, p <> f -> fs s2 !! p = fs s !! p) /\
  match c with
  | Return true =>
      exists bytes, fs s2 !! f = Some bytes /\
                    file_size_kb s2 = RawKB (N.of_nat (length bytes))
  | Return false => False
  | _ => file_size_kb s2 = file_size_kb s /\ status_message s2 <> status_downloaded
  end.
Proof.
  intros Hstep.
  split; [by inversion Hstep|].
  split; [intros p Hp; by eapply request_step_other_paths|].
  inversion Hstep; subst; simpl.
  - split; [done | apply failure_status_not_downloaded].
  - split; [done | apply (failure_status_not_downloaded (HTTPError _))].
  - split; [done | discriminate].
  - split; [done | apply failure_status_not_downloaded].
  - eexists. split; [apply lookup_insert_eq | reflexivity].
Qed.

Lemma for_attempts_facts env f url s0 : forall attempts s n,
  requests_made s = (requests_made s0 + n)%nat ->
  (forall p, p <> f -> fs s !! p = fs s0 !! p) ->
  file_size_kb s = file_size_kb s0 ->
  ((0 < n)%nat -> status_message s <> status_downloaded) ->
  ends (for_attempts attempts (fun _ => attempt_once env f url)) s
       (fun ok s' =>
          (requests_made s0 + n <= requests_made s'
           <= requests_made s0 + n + length attempts)%nat /\
          (forall p, p <> f -> fs s' !! p = fs s0 !! p) /\
          if ok
          then exists bytes, fs s' !! f = Some bytes /\
                             file_size_kb s' = RawKB (N.of_nat (length bytes))
          else file_size_kb s' = file_size_kb s0 /\
               ((0 < n + length attempts)%nat -> status_message s' <> status_downloaded))
       (fun s' =>
          (requests_made s0 + n <= requests_made s'
           <= requests_made s0 + n + length attempts)%nat /\
          (forall p, p <> f -> fs s' !! p = fs s0 !! p)).
Proof.
  induction attempts as [|a rest IH]; intros s n Hn Hfs Hsize Hst.
  - unfold ends. simpl. split; [lia|]. split; [done|]. split; [done|].
    intros Hpos. apply Hst. lia.
  - simpl for_attempts. apply ends_bind.
    eapply ends_mono; [| |apply attempt_once_ends].
    + intros c s' (s1 & s2 & (E1 & E2 & E3 & E4) & Hstep & (K1 & K2 & K3 & K4)).
      apply request_step_facts in Hstep as (Hreq & Hframe & Hc).
      assert (Hn' : requests_made s' = (requests_made s0 + S n)%nat)
        by (rewrite K4, Hreq, E4, Hn; lia).
      assert (Hfs' : forall p, p <> f -> fs s' !! p = fs s0 !! p).
      { intros p Hp. rewrite K3, (Hframe p Hp), E3. by apply Hfs. }
      destruct c as [| |[|]]; try done.
      * destruct Hc as [Hc1 Hc2].
        eapply ends_mono; [| |apply (IH s' (S n))]; try done.
        -- intros ok s'' (Hb & Hf & Hok). simpl length.
           split; [lia|]. split; [done|].
           destruct ok; [done|]. destruct Hok as [Hk1 Hk2].
           split; [done|]. intros _. apply Hk2. lia.
        -- intros s'' (Hb & Hf). simpl length. split; [lia | done].
        -- by rewrite K2, Hc1, E2.
        -- intros _. by rewrite K1.
      * destruct Hc as [Hc1 Hc2]. unfold ends. simpl.
        split; [lia|]. split; [done|]. split; [by rewrite K2, Hc1, E2|].
        intros _. by rewrite K1.
      * destruct Hc as (bytes & Hb1 & Hb2). unfold ends. simpl.
        split; [lia|]. split; [done|]. exists bytes.
        split; [by rewrite K3 | by rewrite K2].
    + intros s' [(E1 & E2 & E3 & E4) _]. simpl length.
      split; [rewrite E4, Hn; lia|].
      intros p Hp. rewrite E3. by apply Hfs.
Qed.

Lemma attempt_download_facts env f url s :
  ends (attempt_download env f url) s
       (fun ok s' =>
          (requests_made s <= requests_made s' <= requests_made s + 3)%nat /\
          (forall p, p <> f -> fs s' !! p = fs s !! p) /\
          if ok
          then exists bytes, fs s' !! f = Some bytes /\
                             file_size_kb s' = RawKB (N.of_nat (length bytes))
          else file_size_kb s' = file_size_kb s /\
               status_message s' <> status_downloaded)
       (fun s' =>
          (requests_made s <= requests_made s' <= requests_made s + 3)%nat /\
          (forall p, p <> f -> fs s' !! p = fs s !! p)).
Proof.
  unfold attempt_download.
  eapply ends_mono; [| |apply (for_attempts_facts env f url s _ s 0%nat)];
    try done; try lia.
  - intros ok s' (Hb & Hf & Hok). simpl in Hb. split; [lia|]. split; [done|].
    destruct ok; [done|]. destruct Hok as [H1 H2]. split; [done|].
    apply H2. simpl. lia.
  - intros s' (Hb & Hf). simpl in Hb. split; [lia | done].
Qed.

Lemma truthy_notna (c : option string) : notna c && truthy c = truthy c.
Proof. by destruct c. Qed.

Lemma download_pdf_facts env row s :
  ends (download_pdf env row) s
       (fun res s' =>
          (requests_made s <= requests_made s' <= requests_made s + 6)%nat /\
          (forall p, p <> pdf_filename_of (name row) -> fs s' !! p = fs s !! p) /\
          (res.2 = NA \/
           exists bytes, res.2 = FmtKB (N.of_nat (length bytes)) /\
                         fs s' !! pdf_filename_of (name row) = Some bytes) /\
          (res.1.2 = status_downloaded -> res.2 = NA ->
           truthy (Pdf_URL row) = false /\ truthy (Report_Html_Address row) = false /\
           requests_made s' = requests_made s /\ fs s' = fs s /\ log s' = log s))
       (fun s' =>
          (requests_made s <= requests_made s' <= requests_made s + 6)%nat /\
          (forall p, p <> pdf_filename_of (name row) -> fs s' !! p = fs s !! p)).
Proof.
  unfold download_pdf. set (f := pdf_filename_of (name row)).
  rewrite !truthy_notna.
  apply ends_bind. unfold ends at 1, modify.
  apply ends_bind. unfold ends at 1.
  set (s1 := set_file_size_kb NA (set_status_message status_downloaded s)).
  apply ends_bind.
  destruct (truthy (Pdf_URL row)) eqn:Hp.
  - (* the primary url is tried *)
    eapply ends_mono; [| |apply (attempt_download_facts env f _ s1)].
    + intros [|] s2 (Hb & Hf & Hok); at_start s1.
      * destruct Hok as (bytes & Hb1 & Hb2).
        unfold ends, bind, gets. rewrite Hb2. simpl.
        split; [lia|]. split; [done|]. split; [right; by exists bytes | done].
      * destruct Hok as [Hsz Hst]. apply ends_bind.
        destruct (truthy (Report_Html_Address row)) eqn:Ha.
        -- eapply ends_mono; [| |apply (attempt_download_facts env f _ s2)].
           ++ intros [|] s3 (Hb' & Hf' & Hok').
              ** destruct Hok' as (bytes & Hb1 & Hb2).
                 unfold ends, bind, gets. rewrite Hb2. simpl.
                 split; [lia|]. split; [by intros p Hq; rewrite Hf', Hf|].
                 split; [right; by exists bytes | done].
              ** destruct Hok' as [Hsz' Hst'].
                 unfold ends, bind, gets, ret. simpl.
                 split; [lia|]. split; [by intros p Hq; rewrite Hf', Hf|].
                 split; [left; by rewrite Hsz', Hsz | done].
           ++ intros s3 (Hb' & Hf'). split; [lia|].
              intros p Hq. by rewrite Hf', Hf.
        -- unfold ends, bind, gets, ret. simpl.
           split; [lia|]. split; [done|]. split; [left; by rewrite Hsz | done].
    + intros s2 (Hb & Hf). at_start s1. split; [lia | done].
  - (* the primary url is blank or missing *)
    unfold ends at 1, ret. apply ends_bind.
    destruct (truthy (Report_Html_Address row)) eqn:Ha.
    + eapply ends_mono; [| |apply (attempt_download_facts env f _ s1)].
      * intros [|] s3 (Hb' & Hf' & Hok'); at_start s1.
        -- destruct Hok' as (bytes & Hb1 & Hb2).
           unfold ends, bind, gets. rewrite Hb2. simpl.
           split; [lia|]. split; [done|]. split; [right; by exists bytes | done].
        -- destruct Hok' as [Hsz' Hst'].
           unfold ends, bind, gets, ret. simpl.
           split; [lia|]. split; [done|]. split; [by left | done].
      * intros s3 (Hb' & Hf'). at_start s1. split; [lia | done].
    + unfold ends, bind, gets, ret. simpl.
      split; [lia|]. split; [done|]. split; [by left | done].
Qed.

Lemma string_length_app (s t : string) :
  String.length (s +:+ t) = (String.length s + String.length t)%nat.
Proof. induction s as [|c s IH]; simpl; [done | by rewrite IH]. Qed.

Lemma string_app_inv_tail (s1 s2 t : string) : s1 +:+ t = s2 +:+ t -> s1 = s2.
Proof.
  revert s2. induction s1 as [|c s1 IH]; intros [|d s2] H; simpl in H.
  - done.
  - apply (f_equal String.length) in H.
    rewrite ?string_length_app in H. simpl in H.
    rewrite ?string_length_app in H. lia.
  - apply (f_equal String.length) in H.
    rewrite ?string_length_app in H. simpl in H.
    rewrite ?string_length_app in H. lia.
  - injection H as -> H. f_equal. by apply IH.
Qed.

Lemma pdf_filename_of_inj (b1 b2 : string) :
  pdf_filename_of b1 = pdf_filename_of b2 -> b1 = b2.
Proof.
  unfold pdf_filename_of, pdf_download_folder. intros H.
  cbn [String.append] in H. repeat injection H as H.
  change (b1 +:+ ".pdf" = b2 +:+ ".pdf") in H.
  by apply string_app_inv_tail in H.
Qed.

(** X4.  A size reported by [download_pdf] is N/A or the formatted size
    of the file that is at the row's destination path when the task
    returns; the raw float is never handed back. *)
Theorem reported_size_is_on_disk env row s b st size s' :
  download_pdf env row s = Returned (b, st, size) s' ->
  size = NA \/
  exists bytes, size = FmtKB (N.of_nat (length bytes)) /\
                fs s' !! pdf_filename_of (name row) = Some bytes.
Proof.
  intros Heq. pose proof (download_pdf_facts env row s) as H.
  unfold ends in H. rewrite Heq in H. by destruct H as (_ & _ & H & _).
Qed.

(** X5.  [download_pdf] returns the success status together with the
    size N/A exactly when both url cells are missing or empty. *)
Theorem downloaded_without_size_iff_blank env row s :
  (exists s', download_pdf env row s = Returned (name row, status_downloaded, NA) s') <->
  truthy (Pdf_URL row) = false /\ truthy (Report_Html_Address row) = false.
Proof.
  split.
  - intros [s' Heq]. pose proof (download_pdf_facts env row s) as H.
    unfold ends in H. rewrite Heq in H. destruct H as (_ & _ & _ & H).
    by destruct (H eq_refl eq_refl) as (? & ? & _).
  - intros [Hp Ha]. eexists. unfold download_pdf.
    rewrite !truthy_notna, Hp, Ha. reflexivity.
Qed.


(** X7.  The destination path determines the row's label, and a task
    leaves the file of every other label as it was. *)
Theorem other_records_files_untouched env row s other :
  other <> name row ->
  match download_pdf env row s with
  | Returned _ s' | Exited s' =>
      fs s' !! pdf_filename_of other = fs s !! pdf_filename_of other
  | Raised _ _ => False
  | OutOfFuel => False
  end.
Proof.
  intros Hne.
  assert (Hp : pdf_filename_of other <> pdf_filename_of (name row))
    by (intros Heq; by apply pdf_filename_of_inj in Heq).
  pose proof (download_pdf_facts env row s) as H. unfold ends in H.
  destruct (download_pdf env row s); try done.
  - destruct H as (_ & H & _). by apply H.
  - destruct H as (_ & H). by apply H.
Qed.

(** ** The connectivity check, in time *)





(** ** The selection and the ledger *)

Lemma filter_sublist {A} (f : A -> bool) (l : list A) : List.filter f l `sublist_of` l.
Proof.
  induction l as [|x l IH]; simpl; [constructor|].
  destruct (f x); by constructor.
Qed.

(** X10.  The selection is a prefix of the candidates, which are a
    sublist of the sheet: the order of the sheet is kept.  For a batch
    size [n] >= 0 at most [n] rows are selected, and all candidates when
    there are no more than [n]. *)
Theorem selection_keeps_sheet_order (df : list Row) (ledger : gmap string Entry) (n : Z) :
  selected_rows df ledger n `prefix_of` downloadable_rows df ledger /\
  downloadable_rows df ledger `sublist_of` df /\
  (0 <= n -> (length (selected_rows df ledger n) <= Z.to_nat n)%nat) /\
  (Z.of_nat (length (downloadable_rows df ledger)) <= n ->
   selected_rows df ledger n = downloadable_rows df ledger).
Proof.
  unfold selected_rows, df_head. split; [|split; [|split]].
  - destruct (0 <=? n); apply prefix_take.
  - apply filter_sublist.
  - intros Hn. apply Z.leb_le in Hn. rewrite Hn, length_take. lia.
  - intros Hn.
    assert (H0 : (0 <=? n) = true) by (apply Z.leb_le; lia).
    rewrite H0. apply take_ge. lia.
Qed.

Lemma fresh_ledger_lookup (df : list Row) (r : Row) :
  r ∈ df -> fresh_ledger df !! name r = Some pending.
Proof.
  unfold fresh_ledger. induction df as [|x df IH]; intros Hr.
  - by apply elem_of_nil in Hr.
  - rewrite fmap_cons. cbn [list_to_map foldr uncurry fst snd].
    destruct (decide (name x = name r)) as [->|Hne].
    + apply lookup_insert_eq.
    + rewrite lookup_insert_ne by done. apply IH.
      apply elem_of_cons in Hr as [->|Hr]; done.
Qed.

(** X11.  Without a status file every row of the sheet is pending, so
    the candidates are the rows whose [Pdf_URL] is not NaN. *)
Theorem first_run_candidates (df : list Row) :
  downloadable_rows df (load_ledger None df) =
  List.filter (fun r => notna (Pdf_URL r)) df.
Proof.
  unfold downloadable_rows, load_ledger. apply filter_ext_in.
  intros r Hr%list_elem_of_In. unfold is_downloadable, status_of.
  rewrite (fresh_ledger_lookup df r Hr). simpl.
  rewrite ?bool_decide_eq_true_2 by done. apply andb_true_r.
Qed.

(** X12.  Filling in a missing [File Size] column on loading gives
    every entry the size N/A, keeps its status, and does not change the
    selection. *)
Theorem file_size_column_fill_keeps_selection
    (df : list Row) (ledger : gmap string Entry) (has_file_size : bool) (n : Z) :
  selected_rows df (load_ledger (Some (has_file_size, ledger)) df) n =
  selected_rows df ledger n /\
  (has_file_size = false ->
   forall b e, ledger !! b = Some e ->
     load_ledger (Some (has_file_size, ledger)) df !! b =
     Some (mkEntry (download_status e) (Some NA))).
Proof.
  split.
  - unfold selected_rows, downloadable_rows, load_ledger. f_equal.
    destruct has_file_size; [done|].
    apply filter_ext. intros r. unfold is_downloadable, status_of.
    rewrite lookup_fmap. by destruct (ledger !! name r).
  - intros -> b e He. simpl. by rewrite lookup_fmap, He.
Qed.

(** X13.  Recording a result sets the status and the size of that
    label, leaves the other labels alone, and replaces an earlier result
    for the same label. *)
Theorem record_result_overwrites (ledger : gmap string Entry) b st size :
  record_result ledger (b, st, size) !! b = Some (mkEntry (Some st) (Some size)) /\
  (forall b', b <> b' -> record_result ledger (b, st, size) !! b' = ledger !! b') /\
  (forall st0 size0,
     record_result (record_result ledger (b, st0, size0)) (b, st, size) =
     record_result ledger (b, st, size)).
Proof.
  split; [apply record_result_lookup|]. split; [intros b'; apply record_result_lookup_ne|].
  intros st0 size0. apply map_eq. intros k.
  destruct (decide (b = k)) as [<-|Hne].
  - by rewrite !record_result_lookup.
  - by rewrite !record_result_lookup_ne.
Qed.

(** X14.  A session that runs to its end changes the ledger only at the
    labels of the rows it collected: the other entries are unchanged,
    rows with other labels are candidates after it exactly when they
    were before, and no entry disappears. *)
Theorem session_touches_only_collected env completed
    (ledger ledger' : gmap string Entry) s s' :
  collect env completed ledger s = Returned ledger' s' ->
  (forall b, b ∉ name <$> completed -> ledger' !! b = ledger !! b) /\
  (forall r, name r ∉ name <$> completed ->
             is_downloadable ledger' r = is_downloadable ledger r) /\
  (forall b, is_Some (ledger !! b) -> is_Some (ledger' !! b)).
Proof.
  intros Hc. apply collect_settled in Hc as (_ & Hin & Hout).
  split; [exact Hout|]. split.
  - intros r Hr. unfold is_downloadable, status_of. by rewrite (Hout _ Hr).
  - intros b Hb. destruct (decide (b ∈ name <$> completed)) as [Hdone|Hnot].
    + apply list_elem_of_fmap in Hdone as (r & -> & Hr).
      destruct (Hin r Hr) as (st & size & Hl & _). by rewrite Hl.
    + by rewrite (Hout _ Hnot).
Qed.

(** ** The repair of the sheet *)

Lemma shift_up_length (cells : list (option string)) :
  length (shift_up cells) = length cells.
Proof. destruct cells; simpl; [done|]. rewrite length_app. simpl. lia. Qed.



(** The three ways through the loop body. *)
Lemma fix_row_cases i_ext i_type row row' :
  fix_row i_ext i_type row = Some row' ->
  row' = row \/
  exists t, row !! i_type = Some t /\ yes_no t = true /\ row !! i_ext = Some None /\
            row' = (take i_type (<[i_ext := t]> row) ++ shift_up (drop i_type row))%list.
Proof.
  unfold fix_row. intros H.
  destruct (row !! i_type) as [t|] eqn:Ht; [|done].
  destruct (row !! i_ext) as [e|] eqn:He; [|done].
  destruct (yes_no t) eqn:Hyn; [|left; congruence].
  destruct (yes_no e); [left; congruence|].
  destruct e as [e|]; simpl in H; [left; congruence|].
  right. exists t. repeat split; congruence.
Qed.

Lemma fix_row_length i_ext i_type row row' :
  fix_row i_ext i_type row = Some row' -> length row' = length row.
Proof.
  intros [->|(t & Ht & _ & _ & ->)]%fix_row_cases; [done|].
  apply lookup_lt_Some in Ht.
  rewrite length_app, length_take, length_insert, shift_up_length, length_drop. lia.
Qed.

Lemma fix_row_idempotent i_ext i_type row row' :
  (i_ext < i_type)%nat ->
  fix_row i_ext i_type row = Some row' ->
  fix_row i_ext i_type row' = Some row'.
Proof.
  intros Hlt Hfix.
  pose proof (fix_row_length _ _ _ _ Hfix) as Hlen.
  destruct (fix_row_cases _ _ _ _ Hfix) as [->|(t & Ht & Hyn & He & Hrow')]; [done|].
  pose proof (lookup_lt_Some _ _ _ Ht) as Hit.
  assert (He' : row' !! i_ext = Some t).
  { rewrite Hrow'. rewrite lookup_app_l by (rewrite length_take, length_insert; lia).
    rewrite lookup_take_lt by done. apply list_lookup_insert_eq. lia. }
  destruct (lookup_lt_is_Some_2 row' i_type) as [t' Ht']; [lia|].
  unfold fix_row. rewrite Ht', He', Hyn. by destruct (yes_no t').
Qed.

(** X15.  The repair keeps the number of rows and the width of every
    row, and changes a row only if its [Type of Assurance Provider] is
    Yes or No and its [External Assurance] is NaN. *)
Theorem fix_sheet_shape i_ext i_type rows rows' :
  fix_sheet i_ext i_type rows = Some rows' ->
  Forall2 (fun row row' =>
             length row' = length row /\
             (row' <> row ->
              exists t, row !! i_type = Some t /\ yes_no t = true /\
                        row !! i_ext = Some None))
          rows rows'.
Proof.
  revert rows'. induction rows as [|row rest IH]; intros rows' H; simpl in H.
  - injection H as <-. constructor.
  - destruct (fix_row i_ext i_type row) as [row'|] eqn:Hrow; [|done].
    destruct (fix_sheet i_ext i_type rest) as [rest'|]; [|done].
    injection H as <-. constructor; [|by apply IH].
    split; [by eapply fix_row_length|].
    intros Hne. destruct (fix_row_cases _ _ _ _ Hrow) as [->|(t & ? & ? & ? & _)]; [done|].
    by exists t.
Qed.


(** X17.  With [External Assurance] to the left of [Type of Assurance
    Provider], repairing a repaired sheet changes nothing. *)
Theorem fix_sheet_idempotent i_ext i_type rows rows' :
  (i_ext < i_type)%nat ->
  fix_sheet i_ext i_type rows = Some rows' ->
  fix_sheet i_ext i_type rows' = Some rows'.
Proof.
  intros Hlt. revert rows'. induction rows as [|row rest IH]; intros rows' H; simpl in H.
  - by injection H as <-.
  - destruct (fix_row i_ext i_type row) as [row'|] eqn:Hrow; [|done].
    destruct (fix_sheet i_ext i_type rest) as [rest'|] eqn:Hrest; [|done].
    injection H as <-. simpl.
    rewrite (fix_row_idempotent _ _ _ _ Hlt Hrow), (IH rest' eq_refl). reflexivity.
Qed.

(** ** Instances of the further properties *)

Lemma primary_success_skips_fallback_witness :
  exists s',
    download_pdf env_pdf row_both s0 =
      Returned ("BR50041", status_downloaded, FmtKB 5) s' /\
    log s' = [EProbe true; EGet primary_url] /\
    fs s' = <[pdf_filename_of "BR50041" := concat pdf_bytes]> ∅ /\
    clock s' = 0.
Proof.
  apply (primary_success_skips_fallback env_pdf row_both s0 primary_url pdf_response);
    try reflexivity; discriminate.
Defined.


Lemma retry_success_keeps_failure_status_witness :
  exists s',
    attempt_download env_flaky (pdf_filename_of "BR50041") primary_url s0 = Returned true s' /\
    status_message s' = status_timeout /\
    file_size_kb s' = RawKB 5 /\
    fs s' !! pdf_filename_of "BR50041" = Some (concat pdf_bytes) /\
    log s' = [EProbe true; EGet primary_url; ESleep 1; EProbe true; EGet primary_url].
Proof.
  apply (retry_success_keeps_failure_status env_flaky (pdf_filename_of "BR50041")
           primary_url status_timeout pdf_response s0); reflexivity.
Defined.

Lemma state_saved_eq :
  download_pdf env_pdf row_both s0 =
  Returned ("BR50041", status_downloaded, FmtKB 5) state_saved.
Proof. vm_compute. reflexivity. Qed.

Lemma reported_size_is_on_disk_witness :
  FmtKB 5 = NA \/
  exists bytes, FmtKB 5 = FmtKB (N.of_nat (length bytes)) /\
                fs state_saved !! pdf_filename_of (name row_both) = Some bytes.
Proof.
  apply (reported_size_is_on_disk env_pdf row_both s0 "BR50041" status_downloaded
           (FmtKB 5) state_saved state_saved_eq).
Defined.

Lemma downloaded_without_size_iff_blank_witness :
  exists s', download_pdf env_offline row_blank s0 =
             Returned (name row_blank, status_downloaded, NA) s'.
Proof.
  apply (proj2 (downloaded_without_size_iff_blank env_offline row_blank s0)).
  split; reflexivity.
Defined.

Lemma other_records_files_untouched_witness :
  match download_pdf env_pdf row_both s0 with
  | Returned _ s' | Exited s' =>
      fs s' !! pdf_filename_of "BR50044" = fs s0 !! pdf_filename_of "BR50044"
  | Raised _ _ => False
  | OutOfFuel => False
  end.
Proof.
  apply (other_records_files_untouched env_pdf row_both s0 "BR50044"). discriminate.
Defined.



Lemma selection_keeps_sheet_order_witness :
  (length (selected_rows df_sample ledger_sample 1) <= Z.to_nat 1)%nat.
Proof.
  destruct (selection_keeps_sheet_order df_sample ledger_sample 1) as (_ & _ & H & _).
  apply H. lia.
Defined.

Lemma file_size_column_fill_keeps_selection_witness :
  load_ledger (Some (false, ledger_sample)) df_sample !! "BR50041" =
  Some (mkEntry (download_status pending) (Some NA)).
Proof.
  destruct (file_size_column_fill_keeps_selection df_sample ledger_sample false 1) as [_ H].
  apply (H eq_refl "BR50041" pending). vm_compute. reflexivity.
Defined.

Lemma record_result_overwrites_witness :
  record_result ledger_sample ("BR50041", status_downloaded, FmtKB 5) !! "BR50044" =
  ledger_sample !! "BR50044".
Proof.
  destruct (record_result_overwrites ledger_sample "BR50041" status_downloaded (FmtKB 5))
    as (_ & H & _).
  apply H. discriminate.
Defined.

Lemma session_touches_only_collected_witness :
  ledger_after !! "BR50044" = ledger_sample !! "BR50044".
Proof.
  destruct (session_touches_only_collected env_pdf
              (selected_rows df_sample ledger_sample 1) ledger_sample ledger_after
              s0 state_after first_run_returns) as (H & _ & _).
  apply H. vm_compute. intros H1. apply list_elem_of_In in H1. simpl in H1.
  destruct H1 as [H1|[]]. discriminate H1.
Defined.

Lemma fix_sheet_shape_witness :
  Forall2 (fun row row' =>
             length row' = length row /\
             (row' <> row ->
              exists t, row !! 2%nat = Some t /\ yes_no t = true /\
                        row !! 1%nat = Some None))
          sheet_sample
          [ [Some "Acme"; Some "Yes"; Some "Accountant"; None];
            [Some "Bolt"; Some "No"; None; None];
            [Some "Core"; Some "Yes"; Some "No"; Some "Limited"] ].
Proof.
  apply (fix_sheet_shape 1 2 sheet_sample). reflexivity.
Defined.


Lemma fix_sheet_idempotent_witness :
  fix_sheet 1 2 [ [Some "Acme"; Some "Yes"; Some "Accountant"; None];
                  [Some "Bolt"; Some "No"; None; None];
                  [Some "Core"; Some "Yes"; Some "No"; Some "Limited"] ] =
  Some [ [Some "Acme"; Some "Yes"; Some "Accountant"; None];
         [Some "Bolt"; Some "No"; None; None];
         [Some "Core"; Some "Yes"; Some "No"; Some "Limited"] ].
Proof.
  apply (fix_sheet_idempotent 1 2 sheet_sample); [lia | reflexivity].
Defined.
